(** * The conversation exchange of the MCP web client

    A shallow embedding of [web-client/src/App.js] (the [App] component:
    its three [useState] cells, [handleProcessQuery], [handleClearHistory],
    [handleKeyPress] and the [disabled] attributes of its controls) and of
    the [api.processQuery] service it calls.

    Modelling conventions.
    - A JavaScript string is its sequence of UTF-16 code units.
    - A JavaScript value is a JSON-shaped tree; numbers are IEEE 754
      binary64 values in the [spec_float] representation.
    - Handlers run in a state-and-exception monad over the [World]: the
      component's hook cells, the requests handed to [axios.post] that have
      not settled yet, and the lines written with [console.error].
    - An [async] handler is cut at its [await]: the part before it runs when
      the event is dispatched, the part after it when the promise settles.
      Nothing the second part reads is captured from the first, so a pending
      request needs no stored continuation.
    - A render closes its handlers over the hook values of that render; the
      component is re-rendered after every state change and before the next
      event, so a dispatched handler reads the committed hook values.
    - What [App] returns is modelled as the tree of elements the JSX
      denotes; what the browser makes of that tree is not modelled. *)

From Stdlib Require Import List String Ascii NArith ZArith Bool Arith Lia SpecFloat.
Import ListNotations.
Local Open Scope list_scope.
Set Warnings "-register-all".

(** ** JavaScript strings *)

Definition code_unit := N.
Definition jsstr := list code_unit.

(** A source string literal (ASCII only in this program). *)
Definition lit (s : string) : jsstr := map N_of_ascii (list_ascii_of_string s).

(** ECMAScript WhiteSpace and LineTerminator code points, the characters
    [String.prototype.trim] strips. *)
Definition isWhiteSpace (c : code_unit) : bool :=
  ((9 <=? c) && (c <=? 13) ||
   (c =? 32) || (c =? 160) || (c =? 5760) ||
   (8192 <=? c) && (c <=? 8202) ||
   (c =? 8232) || (c =? 8233) || (c =? 8239) || (c =? 8287) ||
   (c =? 12288) || (c =? 65279))%N.

Fixpoint trimStart (s : jsstr) : jsstr :=
  match s with
  | [] => []
  | c :: s' => if isWhiteSpace c then trimStart s' else s
  end.

Definition trimEnd (s : jsstr) : jsstr := rev (trimStart (rev s)).

Definition trim (s : jsstr) : jsstr := trimEnd (trimStart s).

(** ** JavaScript values *)

Inductive JSValue : Type :=
| JUndefined
| JNull
| JBool (b : bool)
| JNum (x : spec_float)
| JStr (s : jsstr)
| JArr (elems : list JSValue)
| JObj (props : list (jsstr * JSValue)).

(** ToBoolean. *)
Definition truthy (v : JSValue) : bool :=
  match v with
  | JUndefined | JNull => false
  | JBool b => b
  | JNum (S754_zero _) | JNum S754_nan => false
  | JNum _ => true
  | JStr [] => false
  | JStr _ => true
  | JArr _ | JObj _ => true
  end.

(** [a || b] on values that are already evaluated. *)
Definition js_or (a b : JSValue) : JSValue := if truthy a then a else b.

Definition jsstr_eqb (a b : jsstr) : bool :=
  if list_eq_dec N.eq_dec a b then true else false.

(** Own property of an object given by its property list (an object holds
    each key once). *)
Fixpoint own_property (props : list (jsstr * JSValue)) (key : jsstr) : option JSValue :=
  match props with
  | [] => None
  | (k, v) :: rest => if jsstr_eqb k key then Some v else own_property rest key
  end.

(** Errors: the reason of a rejected promise and what the engine throws. *)
Module JSError.
Record t : Type := mk { name : jsstr; message : jsstr }.
End JSError.

(** V8's TypeError for a property read on [null] or [undefined]. *)
Definition nullish_read (what key : string) : JSError.t :=
  JSError.mk (lit "TypeError")
    (lit ("Cannot read properties of " ++ what ++ " (reading '" ++ key ++ "')")).

(** ** The data of the component *)

(** An entry of the conversation: [{ role, content }]. *)
Record Turn : Type := mkTurn { role : jsstr; content : JSValue }.

(** The body of [POST /api/process]: [{ query, history }]. *)
Module Request.
Record t : Type := mk { query : jsstr; history : list Turn }.
End Request.

(** What [axios.post] resolves to. *)
Module AxiosResponse.
Record t : Type := mk { data : JSValue; status : N }.
End AxiosResponse.

(** How the promise of [axios.post] settles. *)
Inductive Settled : Type :=
| Fulfilled (response : AxiosResponse.t)
| Rejected (error : JSError.t).

(** The three [useState] cells of [App]. *)
Record Hooks : Type := mkHooks {
  conversation : list Turn;
  query : jsstr;
  isProcessing : bool
}.

Record World : Type := mkWorld {
  hooks : Hooks;
  pending : list Request.t;
  console : list JSError.t
}.

Definition initial : World :=
  mkWorld (mkHooks [] (lit "") false) [] [].

(** ** Handlers as computations *)

Inductive Completion (A : Type) : Type :=
| Normal (a : A)
| Throw (e : JSError.t).
Arguments Normal {A} a.
Arguments Throw {A} e.

Definition M (A : Type) : Type := World -> Completion A * World.

Definition ret {A} (a : A) : M A := fun w => (Normal a, w).

Definition bind {A B} (m : M A) (k : A -> M B) : M B :=
  fun w =>
    match m w with
    | (Normal a, w') => k a w'
    | (Throw e, w') => (Throw e, w')
    end.

Definition throw {A} (e : JSError.t) : M A := fun w => (Throw e, w).

(** [try { body } catch (error) { handler }]: what [body] did to the world
    before it threw stays done. *)
Definition try_catch {A} (body : M A) (handler : JSError.t -> M A) : M A :=
  fun w =>
    match body w with
    | (Normal a, w') => (Normal a, w')
    | (Throw e, w') => handler e w'
    end.

(** [try { body } finally { fin }]. *)
Definition try_finally {A} (body : M A) (fin : M unit) : M A :=
  fun w =>
    match body w with
    | (c, w') =>
        match fin w' with
        | (Normal _, w'') => (c, w'')
        | (Throw e, w'') => (Throw e, w'')
        end
    end.

Declare Scope js_scope.
Delimit Scope js_scope with js.
Notation "x <- m ;; k" := (bind m (fun x => k))
  (at level 61, m at next level, right associativity) : js_scope.
Notation "m ;; k" := (bind m (fun _ => k))
  (at level 61, right associativity) : js_scope.
Local Open Scope js_scope.

Definition exec {A} (m : M A) (w : World) : World := snd (m w).
Definition completion {A} (m : M A) (w : World) : Completion A := fst (m w).

(** The state setters of [useState]: a new value, or an updater applied to
    the stored value. *)
Definition with_hooks (f : Hooks -> Hooks) : M unit :=
  fun w => (Normal tt, mkWorld (f (hooks w)) (pending w) (console w)).

Definition setConversation (v : list Turn) : M unit :=
  with_hooks (fun h => mkHooks v (query h) (isProcessing h)).

Definition updateConversation (f : list Turn -> list Turn) : M unit :=
  with_hooks (fun h => mkHooks (f (conversation h)) (query h) (isProcessing h)).

Definition setQuery (v : jsstr) : M unit :=
  with_hooks (fun h => mkHooks (conversation h) v (isProcessing h)).

Definition setIsProcessing (v : bool) : M unit :=
  with_hooks (fun h => mkHooks (conversation h) (query h) v).

(** [console.error('Error processing query:', error)]. *)
Definition console_error (error : JSError.t) : M unit :=
  fun w => (Normal tt, mkWorld (hooks w) (pending w) (console w ++ [error])).

(** [axios.post(`${API_URL}/api/process`, body)]: the request leaves and its
    promise is pending. *)
Definition axios_post (body : Request.t) : M unit :=
  fun w => (Normal tt, mkWorld (hooks w) (pending w ++ [body]) (console w)).

(** Resuming after [await p] once [p] has settled. *)
Definition await (o : Settled) : M AxiosResponse.t :=
  match o with
  | Fulfilled response => ret response
  | Rejected error => throw error
  end.

(** [v.message].  No prototype of a JSON value has a [message] property, so
    only an object's own property can supply one. *)
Definition get_message (v : JSValue) : M JSValue :=
  match v with
  | JUndefined => throw (nullish_read "undefined" "message")
  | JNull => throw (nullish_read "null" "message")
  | JObj props =>
      ret (match own_property props (lit "message") with
           | Some m => m
           | None => JUndefined
           end)
  | JBool _ | JNum _ | JStr _ | JArr _ => ret JUndefined
  end.

(** ** The API service: [api.processQuery] *)

(** Up to its [await]. *)
Definition processQuery (query : jsstr) (conversationHistory : list Turn) : M unit :=
  axios_post (Request.mk query conversationHistory).

(** From its [await] on. *)
Definition processQuery_settled (o : Settled) : M JSValue :=
  try_catch
    (response <- await o ;;
     ret (AxiosResponse.data response))
    (fun error =>
     console_error error ;;
     throw error).

(** ** The component: [App] *)

Definition userMessage (query : jsstr) : Turn :=
  mkTurn (lit "user") (JStr query).

Definition assistantMessage (response message : JSValue) : Turn :=
  mkTurn (lit "assistant") (js_or message response).

Definition errorMessage (error : JSError.t) : Turn :=
  mkTurn (lit "assistant")
    (JStr (lit "Error: " ++
           (if truthy (JStr (JSError.message error))
            then JSError.message error
            else lit "Failed to process query"))).

Definition historyForApi (conversation : list Turn) : list Turn :=
  map (fun entry => mkTurn (role entry) (content entry)) conversation.

(** [handleProcessQuery] of the render with hook values [r], up to its
    [await]. *)
Definition handleProcessQuery (r : Hooks) : M unit :=
  if negb (truthy (JStr (trim (query r)))) then ret tt
  else
    setConversation (conversation r ++ [userMessage (query r)]) ;;
    setIsProcessing true ;;
    processQuery (query r) (historyForApi (conversation r)).

(** [handleProcessQuery] from its [await] on: the rest of the [try] block,
    the [catch] block and the [finally] block. *)
Definition handleProcessQuery_settled (o : Settled) : M unit :=
  try_finally
    (try_catch
       (response <- processQuery_settled o ;;
        message <- get_message response ;;
        updateConversation (fun prev => prev ++ [assistantMessage response message]) ;;
        setQuery (lit ""))
       (fun error =>
        updateConversation (fun prev => prev ++ [errorMessage error])))
    (setIsProcessing false).

Definition handleClearHistory : M unit :=
  setConversation [].

(** [handleKeyPress]: Enter without Shift submits ([preventDefault] keeps the
    line break out of the text area). *)
Definition handleKeyPress (r : Hooks) (key : jsstr) (shiftKey : bool) : M unit :=
  if jsstr_eqb key (lit "Enter") && negb shiftKey
  then handleProcessQuery r
  else ret tt.

(** The [disabled] attributes of the rendered controls. *)
Definition textarea_disabled (r : Hooks) : bool := isProcessing r.

Definition process_disabled (r : Hooks) : bool :=
  negb (truthy (JStr (trim (query r)))) || isProcessing r.

Definition clear_disabled (r : Hooks) : bool :=
  (List.length (conversation r) =? 0) || isProcessing r.

(** ** Events *)

Inductive Event : Type :=
| Change (value : jsstr)
| KeyPress (key : jsstr) (shiftKey : bool)
| ClickProcess
| ClickClear
| Settle (i : nat) (o : Settled).

Definition remove_nth {A} (i : nat) (l : list A) : list A :=
  firstn i l ++ skipn (S i) l.

Definition forget (i : nat) (w : World) : World :=
  mkWorld (hooks w) (remove_nth i (pending w)) (console w).

(** One event.  A disabled control delivers no event to its handler; a
    request can only settle while it is pending. *)
Definition dispatch (w : World) (e : Event) : World :=
  let r := hooks w in
  match e with
  | Change value =>
      if textarea_disabled r then w else exec (setQuery value) w
  | KeyPress key shiftKey =>
      if textarea_disabled r then w else exec (handleKeyPress r key shiftKey) w
  | ClickProcess =>
      if process_disabled r then w else exec (handleProcessQuery r) w
  | ClickClear =>
      if clear_disabled r then w else exec handleClearHistory w
  | Settle i o =>
      match nth_error (pending w) i with
      | Some _ => exec (handleProcessQuery_settled o) (forget i w)
      | None => w
      end
  end.

Definition run (w : World) (es : list Event) : World := fold_left dispatch es w.

Inductive reachable : World -> Prop :=
| reach_initial : reachable initial
| reach_dispatch w e : reachable w -> reachable (dispatch w e).

(** One submission as the user performs it: type the text, press the
    button, and the request settles. *)
Definition submission (w : World) (q : jsstr) (o : Settled) : World :=
  run w [Change q; ClickProcess; Settle 0 o].

Definition submissions (w : World) (l : list (jsstr * Settled)) : World :=
  fold_left (fun w qo => submission w (fst qo) (snd qo)) l w.

(** ** Vocabulary of the properties *)

(** The [message] field of a payload, when it has one. *)
Definition message_field (d : JSValue) : option JSValue :=
  match d with
  | JObj props => own_property props (lit "message")
  | _ => None
  end.

Definition nullish (d : JSValue) : bool :=
  match d with
  | JUndefined | JNull => true
  | _ => false
  end.

(** The turn a settled request leaves in the conversation. *)
Definition reply (o : Settled) : Turn :=
  match o with
  | Rejected error => errorMessage error
  | Fulfilled response =>
      match AxiosResponse.data response with
      | JUndefined => errorMessage (nullish_read "undefined" "message")
      | JNull => errorMessage (nullish_read "null" "message")
      | d => assistantMessage d
               (match message_field d with Some m => m | None => JUndefined end)
      end
  end.

(** Whether the [try] block ran to its end. *)
Definition answered (o : Settled) : bool :=
  match o with
  | Rejected _ => false
  | Fulfilled response => negb (nullish (AxiosResponse.data response))
  end.

Definition exchange (qo : jsstr * Settled) : list Turn :=
  [userMessage (fst qo); reply (snd qo)].

Definition is_user (t : Turn) : bool := jsstr_eqb (role t) (lit "user").
Definition is_assistant (t : Turn) : bool := jsstr_eqb (role t) (lit "assistant").

(** A conversation made of user turns each directly followed by an
    assistant turn. *)
Fixpoint user_assistant_pairs (c : list Turn) : bool :=
  match c with
  | [] => true
  | u :: a :: rest => is_user u && is_assistant a && user_assistant_pairs rest
  | [_] => false
  end.

Definition is_settle (e : Event) : bool :=
  match e with
  | Settle _ _ => true
  | _ => false
  end.

(** Events that can start a submission. *)
Definition is_submit (e : Event) : bool :=
  match e with
  | ClickProcess => true
  | KeyPress key shiftKey => jsstr_eqb key (lit "Enter") && negb shiftKey
  | _ => false
  end.

Fixpoint js_size (v : JSValue) : nat :=
  match v with
  | JArr elems => S (list_sum (map js_size elems))
  | JObj props => S (list_sum (map (fun kv => js_size (snd kv)) props))
  | _ => 1
  end.

(** What holds of the world between events. *)
Definition Inv (w : World) : Prop :=
  if isProcessing (hooks w)
  then exists l : list (jsstr * Settled),
         truthy (JStr (trim (query (hooks w)))) = true /\
         conversation (hooks w) = flat_map exchange l ++ [userMessage (query (hooks w))] /\
         pending w = [Request.mk (query (hooks w)) (flat_map exchange l)]
  else (exists l : list (jsstr * Settled), conversation (hooks w) = flat_map exchange l) /\
       pending w = [].

Definition role_ok (t : Turn) : Prop :=
  role t = lit "user" \/ role t = lit "assistant".

(** The reading of a successful settlement in world [w] with [response]
    that claim C2 states: one turn is appended, its content is the [message]
    field whenever there is one, and it is the raw payload exactly when
    there is none. *)
Definition content_is_message_else_payload (w : World) (response : AxiosResponse.t) : Prop :=
  let d := AxiosResponse.data response in
  exists t,
    conversation (hooks (exec (handleProcessQuery_settled (Fulfilled response)) w)) =
      conversation (hooks w) ++ [t] /\
    (forall m, message_field d = Some m -> content t = m) /\
    (content t = d <-> message_field d = None).


(** ** Sample worlds *)

Definition w_typed : World := run initial [Change (lit "hi")].
Definition w_busy : World := run initial [Change (lit "hi"); ClickProcess].
Definition w_answered : World :=
  submission initial (lit "hi")
    (Fulfilled (AxiosResponse.mk (JObj [(lit "message", JStr (lit "yo"))]) 200)).
Definition network_error : JSError.t :=
  JSError.mk (lit "AxiosError") (lit "Network Error").

Definition two_answers : list (jsstr * Settled) :=
  [(lit "hi", Fulfilled (AxiosResponse.mk (JObj [(lit "message", JStr (lit "yo"))]) 200));
   (lit "more", Fulfilled (AxiosResponse.mk (JStr (lit "plain text")) 200))].

(** ** The rendered tree: what [App] returns *)

(** The functions the elements carry as event props. *)
Inductive Callback : Type :=
| SetQueryFromTarget
| HandleKeyPress
| HandleProcessQuery
| HandleClearHistory.

Inductive Attr : Type :=
| AStr (s : jsstr)
| ABool (b : bool)
| ANum (n : Z)
| AFun (f : Callback).

(** A child of an element: an element, a text, the value of an expression
    in braces, the [false] a failed [&&] leaves, or the array a [map]
    returns. *)
Inductive Node : Type :=
| Element (tag : string) (attrs : list (string * Attr)) (children : list Node)
| Text (s : jsstr)
| Child (v : JSValue)
| Skip
| Items (l : list Node).

(** [l.map((entry, index) => f entry index)]. *)
Fixpoint mapi_from {A B} (f : A -> nat -> B) (i : nat) (l : list A) : list B :=
  match l with
  | [] => []
  | a :: l' => f a i :: mapi_from f (S i) l'
  end.

Definition mapi {A B} (f : A -> nat -> B) (l : list A) : list B := mapi_from f 0 l.

(** One entry of the history; [len] is [conversation.length]. *)
Definition message_view (len : nat) (entry : Turn) (index : nat) : Node :=
  Element "div"
    [("key"%string, ANum (Z.of_nat index));
     ("className"%string,
      AStr (lit "message " ++
            (if is_user entry then lit "user-message" else lit "assistant-message")))]
    [Element "strong" [] [Text (if is_user entry then lit "You:" else lit "Assistant:")];
     Element "p" [] [Child (content entry)];
     if (Z.of_nat index <? Z.of_nat len - 1)%Z then Element "hr" [] [] else Skip].

Definition App (r : Hooks) : Node :=
  Element "div" [("className"%string, AStr (lit "app-container"))]
    [Element "header" [] [Element "h1" [] [Text (lit "MCP Client Interface")]];
     Element "main" []
       [(if 0 <? List.length (conversation r)
         then Element "div" [("className"%string, AStr (lit "conversation-container"))]
                [Element "h2" [] [Text (lit "Conversation History")];
                 Element "div" [("className"%string, AStr (lit "conversation-history"))]
                   [Items (mapi (message_view (List.length (conversation r)))
                                (conversation r))]]
         else Skip);
        Element "div" [("className"%string, AStr (lit "input-container"))]
          [Element "textarea"
             [("value"%string, AStr (query r));
              ("onChange"%string, AFun SetQueryFromTarget);
              ("onKeyPress"%string, AFun HandleKeyPress);
              ("placeholder"%string, AStr (lit "Enter your query..."));
              ("rows"%string, ANum 4);
              ("disabled"%string, ABool (textarea_disabled r))]
             [];
           Element "div" [("className"%string, AStr (lit "button-container"))]
             [Element "button"
                [("onClick"%string, AFun HandleProcessQuery);
                 ("disabled"%string, ABool (process_disabled r));
                 ("className"%string, AStr (lit "process-button"))]
                [Text (if isProcessing r then lit "Processing..." else lit "Process Query")];
              Element "button"
                [("onClick"%string, AFun HandleClearHistory);
                 ("disabled"%string, ABool (clear_disabled r));
                 ("className"%string, AStr (lit "clear-button"))]
                [Text (lit "Clear History")]]]]].

(** Reading a tree: a node and all nodes below it, in document order. *)
Fixpoint descendants (n : Node) : list Node :=
  n :: match n with
       | Element _ _ children => flat_map descendants children
       | Items l => flat_map descendants l
       | _ => []
       end.

Definition tag_is (t : string) (n : Node) : bool :=
  match n with
  | Element t' _ _ => String.eqb t t'
  | _ => false
  end.

(** The elements with tag [t], in document order. *)
Definition by_tag (t : string) (n : Node) : list Node :=
  filter (tag_is t) (descendants n).

Definition children_of (n : Node) : list Node :=
  match n with
  | Element _ _ children => children
  | Items l => l
  | _ => []
  end.

Fixpoint attr_lookup (name : string) (attrs : list (string * Attr)) : option Attr :=
  match attrs with
  | [] => None
  | (k, a) :: rest => if String.eqb k name then Some a else attr_lookup name rest
  end.

Definition attr_of (name : string) (n : Node) : option Attr :=
  match n with
  | Element _ attrs _ => attr_lookup name attrs
  | _ => None
  end.

(** The label the history shows for a turn. *)
Definition label (t : Turn) : jsstr :=
  if is_user t then lit "You:" else lit "Assistant:".

(** What an event writes with [console.error]. *)
Definition logged (w : World) (e : Event) : list JSError.t :=
  match e with
  | Settle i (Rejected error) =>
      match nth_error (pending w) i with
      | Some _ => [error]
      | None => []
      end
  | _ => []
  end.

(** The errors of the calls that were rejected, in order. *)
Definition rejections (l : list (jsstr * Settled)) : list JSError.t :=
  flat_map (fun qo => match snd qo with Rejected error => [error] | _ => [] end) l.

Definition is_clear (e : Event) : bool :=
  match e with
  | ClickClear => true
  | _ => false
  end.

(** ** Strings and values *)

Lemma trimStart_nil (s : jsstr) :
  trimStart s = [] <-> forallb isWhiteSpace s = true.
Proof.
  induction s as [|c s IH]; simpl.
  - tauto.
  - destruct (isWhiteSpace c); simpl.
    + exact IH.
    + split; discriminate.
Qed.

Lemma trimStart_head (s : jsstr) (c : code_unit) (s' : jsstr) :
  trimStart s = c :: s' -> isWhiteSpace c = false.
Proof.
  induction s as [|d s IH]; simpl.
  - discriminate.
  - destruct (isWhiteSpace d) eqn:E.
    + exact IH.
    + intros H. injection H as -> _. exact E.
Qed.

Lemma forallb_rev {A} (f : A -> bool) (l : list A) :
  forallb f (rev l) = forallb f l.
Proof.
  induction l as [|a l IH]; simpl.
  - reflexivity.
  - rewrite forallb_app, IH. simpl. rewrite andb_true_r. apply andb_comm.
Qed.

(** [trim] leaves nothing exactly when every code unit is white space. *)
Lemma trim_nil (s : jsstr) :
  trim s = [] <-> forallb isWhiteSpace s = true.
Proof.
  unfold trim, trimEnd. split.
  - intros H.
    assert (H1 : trimStart (rev (trimStart s)) = []).
    { destruct (trimStart (rev (trimStart s))) as [|x t]; [reflexivity|].
      simpl in H. destruct (rev t); discriminate. }
    apply trimStart_nil in H1. rewrite forallb_rev in H1.
    destruct (trimStart s) as [|c s'] eqn:E.
    + apply trimStart_nil. exact E.
    + apply trimStart_head in E. simpl in H1. rewrite E in H1. discriminate.
  - intros H. apply trimStart_nil in H. rewrite H. reflexivity.
Qed.

Lemma truthy_JStr (s : jsstr) : truthy (JStr s) = true <-> s <> [].
Proof.
  destruct s; simpl; split; intros H; congruence.
Qed.

Lemma own_property_size props key m :
  own_property props key = Some m -> js_size m < js_size (JObj props).
Proof.
  simpl. induction props as [|[k v] rest IH]; simpl.
  - discriminate.
  - destruct (jsstr_eqb k key).
    + intros H. injection H as ->. lia.
    + intros H. apply IH in H. lia.
Qed.

(** A payload is never its own [message] field. *)
Lemma message_field_strict d m : message_field d = Some m -> m <> d.
Proof.
  destruct d; simpl; try discriminate.
  intros H E. apply own_property_size in H. rewrite E in H. lia.
Qed.

Lemma historyForApi_id (c : list Turn) : historyForApi c = c.
Proof.
  unfold historyForApi. induction c as [|[r k] c IH]; simpl.
  - reflexivity.
  - rewrite IH. reflexivity.
Qed.


Lemma reply_assistant (o : Settled) : role (reply o) = lit "assistant".
Proof.
  destruct o as [[d st]|e]; [destruct d|]; reflexivity.
Qed.

Lemma user_assistant_pairs_exchanges (l : list (jsstr * Settled)) :
  user_assistant_pairs (flat_map exchange l) = true.
Proof.
  induction l as [|[q o] l IH]; simpl.
  - reflexivity.
  - rewrite IH. unfold is_assistant. rewrite reply_assistant. reflexivity.
Qed.

Lemma length_exchanges (l : list (jsstr * Settled)) :
  List.length (flat_map exchange l) = 2 * List.length l.
Proof.
  induction l as [|qo l IH]; simpl; [reflexivity | rewrite IH; lia].
Qed.

(** ** What the handlers compute *)

Lemma exec_handleProcessQuery (r : Hooks) (w : World) :
  exec (handleProcessQuery r) w =
  if truthy (JStr (trim (query r)))
  then mkWorld
         (mkHooks (conversation r ++ [userMessage (query r)]) (query (hooks w)) true)
         (pending w ++ [Request.mk (query r) (historyForApi (conversation r))])
         (console w)
  else w.
Proof.
  unfold handleProcessQuery.
  destruct (truthy (JStr (trim (query r)))); reflexivity.
Qed.

Lemma run_settled (o : Settled) (w : World) :
  handleProcessQuery_settled o w =
  (Normal tt,
   mkWorld
     (mkHooks (conversation (hooks w) ++ [reply o])
              (if answered o then lit "" else query (hooks w))
              false)
     (pending w)
     (match o with Rejected error => console w ++ [error] | _ => console w end)).
Proof.
  destruct o as [[d st]|e]; [destruct d|]; reflexivity.
Qed.

Lemma exec_handleKeyPress (r : Hooks) key shiftKey (w : World) :
  exec (handleKeyPress r key shiftKey) w =
  if is_submit (KeyPress key shiftKey) then exec (handleProcessQuery r) w else w.
Proof.
  unfold handleKeyPress. simpl.
  destruct (jsstr_eqb key (lit "Enter") && negb shiftKey); reflexivity.
Qed.

Lemma reachable_run (w : World) (es : list Event) :
  reachable w -> reachable (run w es).
Proof.
  revert w. induction es as [|e es IH]; simpl; intros w H.
  - exact H.
  - apply IH. constructor. exact H.
Qed.

(** ** The invariant *)

Lemma Inv_initial : Inv initial.
Proof.
  unfold Inv. simpl. split; [exists []|]; reflexivity.
Qed.

(** While a request is pending every control is disabled. *)
Lemma dispatch_processing (w : World) (e : Event) :
  isProcessing (hooks w) = true -> is_settle e = false -> dispatch w e = w.
Proof.
  intros P S. destruct e; simpl in *;
    unfold textarea_disabled, process_disabled, clear_disabled;
    rewrite ?P, ?orb_true_r; try reflexivity.
  discriminate.
Qed.

Lemma Inv_start (w : World) :
  Inv w -> isProcessing (hooks w) = false ->
  Inv (exec (handleProcessQuery (hooks w)) w).
Proof.
  intros I P. rewrite exec_handleProcessQuery.
  destruct (truthy (JStr (trim (query (hooks w))))) eqn:T; [|exact I].
  unfold Inv in *. rewrite P in I. destruct I as [[l Hl] Hp]. simpl.
  exists l. rewrite historyForApi_id, Hl, Hp. auto.
Qed.

Lemma Inv_dispatch (w : World) (e : Event) : Inv w -> Inv (dispatch w e).
Proof.
  intros I. destruct (isProcessing (hooks w)) eqn:P.
  - destruct (is_settle e) eqn:S.
    + destruct e as [| | | |i o]; try discriminate. simpl.
      unfold Inv in I. rewrite P in I. destruct I as (l & T & Hc & Hp).
      rewrite Hp. destruct i as [|i]; simpl.
      * unfold exec. rewrite run_settled. unfold Inv, forget. simpl.
        rewrite Hp. split; [|reflexivity].
        exists (l ++ [(query (hooks w), o)]).
        rewrite Hc, flat_map_app. simpl. rewrite <- app_assoc. reflexivity.
      * destruct i; simpl; unfold Inv; rewrite P; eauto.
    + rewrite dispatch_processing by assumption. exact I.
  - destruct e as [v|key sh| | |i o]; simpl;
      unfold textarea_disabled, process_disabled, clear_disabled; rewrite ?P.
    + unfold Inv in *. rewrite P in I. simpl. rewrite P. exact I.
    + rewrite exec_handleKeyPress.
      destruct (is_submit (KeyPress key sh)); [|exact I].
      apply Inv_start; assumption.
    + rewrite orb_false_r.
      destruct (negb (truthy (JStr (trim (query (hooks w)))))); [exact I|].
      apply Inv_start; assumption.
    + rewrite orb_false_r.
      destruct (List.length (conversation (hooks w)) =? 0); [exact I|].
      unfold Inv in *. rewrite P in I. simpl. rewrite P.
      split; [exists []; reflexivity | apply I].
    + assert (Hp : pending w = []).
      { unfold Inv in I. rewrite P in I. apply I. }
      rewrite Hp. destruct i; exact I.
Qed.

Lemma Inv_reachable (w : World) : reachable w -> Inv w.
Proof.
  induction 1 as [|w e _ IH]; [exact Inv_initial | apply Inv_dispatch, IH].
Qed.

Lemma reachable_idle (w : World) :
  reachable w -> isProcessing (hooks w) = false ->
  (exists l, conversation (hooks w) = flat_map exchange l) /\ pending w = [].
Proof.
  intros R P. apply Inv_reachable in R. unfold Inv in R. rewrite P in R. exact R.
Qed.

Lemma reachable_processing (w : World) :
  reachable w -> isProcessing (hooks w) = true ->
  exists l,
    truthy (JStr (trim (query (hooks w)))) = true /\
    conversation (hooks w) = flat_map exchange l ++ [userMessage (query (hooks w))] /\
    pending w = [Request.mk (query (hooks w)) (flat_map exchange l)].
Proof.
  intros R P. apply Inv_reachable in R. unfold Inv in R. rewrite P in R. exact R.
Qed.



Lemma run_processing (w : World) (es : list Event) :
  isProcessing (hooks w) = true ->
  forallb (fun e => negb (is_settle e)) es = true ->
  run w es = w.
Proof.
  intros P. induction es as [|e es IH]; simpl; intros H.
  - reflexivity.
  - apply andb_prop in H. destruct H as [He Hes].
    rewrite dispatch_processing; auto.
    destruct (is_settle e); [discriminate | reflexivity].
Qed.

Lemma dispatch_settle_processing (w : World) (o : Settled) :
  reachable w -> isProcessing (hooks w) = true ->
  dispatch w (Settle 0 o) =
  mkWorld
    (mkHooks (conversation (hooks w) ++ [reply o])
             (if answered o then lit "" else query (hooks w))
             false)
    []
    (match o with Rejected error => console w ++ [error] | _ => console w end).
Proof.
  intros R P. destruct (reachable_processing w R P) as (l & _ & _ & Hp).
  simpl. rewrite Hp. simpl. unfold exec. rewrite run_settled.
  unfold forget. simpl. rewrite Hp. reflexivity.
Qed.

Lemma reachable_w_typed : reachable w_typed.
Proof. apply reachable_run, reach_initial. Qed.

Lemma reachable_w_busy : reachable w_busy.
Proof. apply reachable_run, reach_initial. Qed.

Lemma reachable_w_answered : reachable w_answered.
Proof. apply reachable_run, reach_initial. Qed.

(** ** The properties *)

(** The handlers themselves test neither [isProcessing] nor the length of
    the conversation: called on a world with a request in flight they would
    act.  The guard is the [disabled] attribute of the controls, which keeps
    the events from reaching them. *)
Remark guard_is_in_the_controls :
  isProcessing (hooks w_busy) = true /\
  exec (handleProcessQuery (hooks w_busy)) w_busy <> w_busy /\
  exec handleClearHistory w_busy <> w_busy.
Proof.
  split; [reflexivity|]. split; discriminate.
Qed.

(** C1.  While a request is outstanding ([isProcessing] is true) the world,
    and so the conversation, is unchanged by every event other than the
    settlement of that request: further submit attempts (the Process button,
    Enter in the text area), clear attempts and edits are no-ops.  In every
    reachable world at most one request is in flight, and exactly one while
    [isProcessing] is true. *)
Theorem in_flight_guard (w : World) :
  reachable w ->
  List.length (pending w) <= 1 /\
  (isProcessing (hooks w) = true ->
   List.length (pending w) = 1 /\
   dispatch w ClickProcess = w /\
   dispatch w ClickClear = w /\
   (forall key shiftKey, dispatch w (KeyPress key shiftKey) = w) /\
   (forall es, forallb (fun e => negb (is_settle e)) es = true -> run w es = w)).
Proof.
  intros R. split.
  - destruct (isProcessing (hooks w)) eqn:P.
    + destruct (reachable_processing w R P) as (l & _ & _ & Hp).
      rewrite Hp. simpl. lia.
    + destruct (reachable_idle w R P) as [_ Hp]. rewrite Hp. simpl. lia.
  - intros P. destruct (reachable_processing w R P) as (l & _ & _ & Hp).
    rewrite Hp. repeat split.
    + apply dispatch_processing; auto.
    + apply dispatch_processing; auto.
    + intros. apply dispatch_processing; auto.
    + intros es H. apply run_processing; assumption.
Qed.

Lemma in_flight_guard_witness :
  reachable w_busy /\ isProcessing (hooks w_busy) = true /\
  List.length (pending w_busy) <= 1 /\
  List.length (pending w_busy) = 1 /\
  dispatch w_busy ClickProcess = w_busy /\
  dispatch w_busy ClickClear = w_busy /\
  run w_busy [ClickProcess; KeyPress (lit "Enter") false; ClickClear; Change (lit "x")] =
    w_busy.
Proof.
  destruct (in_flight_guard w_busy reachable_w_busy) as [H0 H].
  destruct (H eq_refl) as (H1 & H2 & H3 & _ & H5).
  split; [exact reachable_w_busy|]. split; [reflexivity|].
  split; [exact H0|]. split; [exact H1|]. split; [exact H2|]. split; [exact H3|].
  apply H5. reflexivity.
Defined.

(** The reply [{ message: "hi" }] shows as "hi". *)
Example message_hi_is_shown :
  conversation (hooks (dispatch w_busy
    (Settle 0 (Fulfilled (AxiosResponse.mk (JObj [(lit "message", JStr (lit "hi"))]) 200))))) =
  [userMessage (lit "hi"); mkTurn (lit "assistant") (JStr (lit "hi"))].
Proof. reflexivity. Qed.

(** The reply [null] makes [response.message] throw inside the [try] block:
    the turn is an error turn and the query cell keeps its text. *)
Example null_payload_is_an_error_turn :
  hooks (dispatch w_busy (Settle 0 (Fulfilled (AxiosResponse.mk JNull 200)))) =
  mkHooks [userMessage (lit "hi");
           mkTurn (lit "assistant")
             (JStr (lit "Error: Cannot read properties of null (reading 'message')"))]
          (lit "hi") false.
Proof. reflexivity. Qed.

(** What [response.message || response] stores for a payload other than
    [null] or [undefined]: the payload's [message] field when that field is
    present and truthy, and the raw payload exactly when the payload has no
    truthy [message] field (none at all, or an empty string, a zero, NaN,
    [false] or [null]).  The [||] does not tell a missing field from a falsy
    one. *)
Theorem assistant_content_on_success (w : World) (response : AxiosResponse.t) :
  nullish (AxiosResponse.data response) = false ->
  exists t,
    conversation (hooks (exec (handleProcessQuery_settled (Fulfilled response)) w)) =
      conversation (hooks w) ++ [t] /\
    role t = lit "assistant" /\
    (forall m, message_field (AxiosResponse.data response) = Some m ->
               truthy m = true -> content t = m) /\
    (content t = AxiosResponse.data response <->
     forall m, message_field (AxiosResponse.data response) = Some m -> truthy m = false).
Proof.
  intros N. exists (reply (Fulfilled response)).
  unfold exec. rewrite run_settled. cbn [snd hooks conversation].
  split; [reflexivity|]. split; [apply reply_assistant|].
  destruct response as [d st]. cbn [AxiosResponse.data] in *.
  assert (E : reply (Fulfilled (AxiosResponse.mk d st)) =
              assistantMessage d
                (match message_field d with Some m => m | None => JUndefined end)).
  { destruct d; try discriminate; reflexivity. }
  rewrite E. clear E. unfold assistantMessage, js_or. simpl.
  destruct (message_field d) as [m0|] eqn:F.
  - split.
    + intros m Hm T. injection Hm as ->. rewrite T. reflexivity.
    + destruct (truthy m0) eqn:T; split.
      * intros H. exfalso. exact (message_field_strict d m0 F H).
      * intros H. specialize (H m0 eq_refl). congruence.
      * intros _ m Hm. injection Hm as <-. exact T.
      * reflexivity.
  - simpl. split; [discriminate|]. split; [discriminate | reflexivity].
Qed.

Lemma assistant_content_on_success_witness :
  nullish (AxiosResponse.data (AxiosResponse.mk (JObj [(lit "message", JStr (lit "hi"))]) 200)) = false /\
  exists t,
    conversation (hooks (exec (handleProcessQuery_settled
        (Fulfilled (AxiosResponse.mk (JObj [(lit "message", JStr (lit "hi"))]) 200))) w_busy)) =
      conversation (hooks w_busy) ++ [t] /\
    role t = lit "assistant" /\
    (forall m, message_field (JObj [(lit "message", JStr (lit "hi"))]) = Some m ->
               truthy m = true -> content t = m) /\
    (content t = JObj [(lit "message", JStr (lit "hi"))] <->
     forall m, message_field (JObj [(lit "message", JStr (lit "hi"))]) = Some m ->
               truthy m = false).
Proof.
  split; [reflexivity|].
  apply (assistant_content_on_success w_busy
           (AxiosResponse.mk (JObj [(lit "message", JStr (lit "hi"))]) 200)).
  reflexivity.
Defined.

(** The reading of claim C2 fails on the payload [{ message: "" }]. *)
Lemma falsy_message_shows_payload :
  ~ content_is_message_else_payload w_busy
      (AxiosResponse.mk (JObj [(lit "message", JStr (lit ""))]) 200).
Proof.
  intros (t & Hc & Hm & _).
  specialize (Hm (JStr (lit "")) eq_refl).
  unfold exec in Hc. rewrite run_settled in Hc. simpl in Hc.
  injection Hc as Ht. subst t.
  discriminate Hm.
Qed.

(** C2.  The code departs from the claim on the answer [{ message: "" }]:
    the payload has a [message] field, the empty string, and the claim makes
    that field the content of the assistant turn; [response.message ||
    response] takes the empty string for false and stores the whole payload
    object as the content instead. *)
Theorem empty_message_stores_the_payload :
  message_field (JObj [(lit "message", JStr (lit ""))]) = Some (JStr (lit "")) /\
  hooks (dispatch w_busy
           (Settle 0 (Fulfilled
              (AxiosResponse.mk (JObj [(lit "message", JStr (lit ""))]) 200)))) =
    mkHooks [userMessage (lit "hi");
             mkTurn (lit "assistant") (JObj [(lit "message", JStr (lit ""))])]
            (lit "") false /\
  JObj [(lit "message", JStr (lit ""))] <> JStr (lit "") /\
  ~ content_is_message_else_payload w_busy
      (AxiosResponse.mk (JObj [(lit "message", JStr (lit ""))]) 200).
Proof.
  split; [reflexivity|]. split; [reflexivity|]. split; [discriminate|].
  exact falsy_message_shows_payload.
Qed.

(** C3.  When the text in the query cell is empty after trimming (empty, or
    white space only), a submission changes nothing: the handler returns at
    its first line, whether it is reached through the Process button,
    through Enter in the text area, or called as is.  The conversation is as
    before and no request is handed to the backend. *)
Theorem blank_query_is_rejected (w : World) :
  trim (query (hooks w)) = [] ->
  handleProcessQuery (hooks w) w = (Normal tt, w) /\
  dispatch w ClickProcess = w /\
  (forall key shiftKey, dispatch w (KeyPress key shiftKey) = w) /\
  (forall e, is_submit e = true ->
     conversation (hooks (dispatch w e)) = conversation (hooks w) /\
     pending (dispatch w e) = pending w).
Proof.
  intros T.
  assert (H0 : handleProcessQuery (hooks w) w = (Normal tt, w)).
  { unfold handleProcessQuery. rewrite T. reflexivity. }
  assert (H1 : dispatch w ClickProcess = w).
  { simpl. destruct (process_disabled (hooks w)); [reflexivity|].
    unfold exec. rewrite H0. reflexivity. }
  assert (H2 : forall key shiftKey, dispatch w (KeyPress key shiftKey) = w).
  { intros key sh. simpl. destruct (textarea_disabled (hooks w)); [reflexivity|].
    rewrite exec_handleKeyPress.
    destruct (is_submit (KeyPress key sh)); [|reflexivity].
    unfold exec. rewrite H0. reflexivity. }
  repeat split; auto.
  - destruct e; try discriminate; rewrite ?H1, ?H2; reflexivity.
  - destruct e; try discriminate; rewrite ?H1, ?H2; reflexivity.
Qed.

Lemma blank_query_is_rejected_witness :
  let w := run w_answered [Change [32; 9; 160]%N] in
  trim (query (hooks w)) = [] /\
  handleProcessQuery (hooks w) w = (Normal tt, w) /\
  dispatch w ClickProcess = w /\
  (forall key shiftKey, dispatch w (KeyPress key shiftKey) = w) /\
  (forall e, is_submit e = true ->
     conversation (hooks (dispatch w e)) = conversation (hooks w) /\
     pending (dispatch w e) = pending w).
Proof.
  split; [reflexivity|].
  apply (blank_query_is_rejected (run w_answered [Change [32; 9; 160]%N])).
  reflexivity.
Defined.

(** C4.  A submission of a non-blank query hands the backend one request
    whose [query] is the submitted text and whose [history] is the
    conversation as it stood before the submission; the stored conversation
    becomes that history followed by the user turn of the query, so the
    history is the new conversation without its last turn. *)
Theorem request_history_is_prior_conversation (w : World) :
  trim (query (hooks w)) <> [] ->
  exists req,
    pending (exec (handleProcessQuery (hooks w)) w) = pending w ++ [req] /\
    Request.query req = query (hooks w) /\
    Request.history req = conversation (hooks w) /\
    conversation (hooks (exec (handleProcessQuery (hooks w)) w)) =
      Request.history req ++ [userMessage (Request.query req)] /\
    Request.history req =
      removelast (conversation (hooks (exec (handleProcessQuery (hooks w)) w))).
Proof.
  intros T. apply truthy_JStr in T.
  exists (Request.mk (query (hooks w)) (conversation (hooks w))).
  rewrite exec_handleProcessQuery, T, historyForApi_id. simpl.
  repeat split. rewrite removelast_last. reflexivity.
Qed.

Lemma request_history_is_prior_conversation_witness :
  let w := run w_answered [Change (lit "more")] in
  trim (query (hooks w)) <> [] /\
  exists req,
    pending (exec (handleProcessQuery (hooks w)) w) = pending w ++ [req] /\
    Request.query req = query (hooks w) /\
    Request.history req = conversation (hooks w) /\
    conversation (hooks (exec (handleProcessQuery (hooks w)) w)) =
      Request.history req ++ [userMessage (Request.query req)] /\
    Request.history req =
      removelast (conversation (hooks (exec (handleProcessQuery (hooks w)) w))).
Proof.
  split; [discriminate|].
  apply (request_history_is_prior_conversation (run w_answered [Change (lit "more")])).
  discriminate.
Defined.




Lemma submission_idle (w : World) (q : jsstr) (o : Settled) :
  isProcessing (hooks w) = false -> pending w = [] -> trim q <> [] ->
  submission w q o =
  mkWorld
    (mkHooks (conversation (hooks w) ++ exchange (q, o))
             (if answered o then lit "" else q)
             false)
    []
    (match o with Rejected error => console w ++ [error] | _ => console w end).
Proof.
  intros P Hp T. apply truthy_JStr in T.
  destruct w as [[c q0 p] pend cons]. simpl in P, Hp. subst p pend.
  unfold submission, run. cbn [fold_left].
  assert (E1 : dispatch (mkWorld (mkHooks c q0 false) [] cons) (Change q) =
               mkWorld (mkHooks c q false) [] cons) by reflexivity.
  rewrite E1. clear E1.
  assert (E2 : dispatch (mkWorld (mkHooks c q false) [] cons) ClickProcess =
               mkWorld (mkHooks (c ++ [userMessage q]) q true)
                       [Request.mk q c] cons).
  { cbn [dispatch hooks]. unfold process_disabled. cbn [query isProcessing].
    rewrite T. cbn [negb orb]. rewrite exec_handleProcessQuery.
    cbn [query conversation hooks pending console]. rewrite T, historyForApi_id.
    reflexivity. }
  rewrite E2. clear E2.
  cbn [dispatch pending nth_error]. unfold exec. rewrite run_settled.
  cbn [snd forget hooks conversation query pending console remove_nth firstn skipn app exchange fst].
  rewrite <- app_assoc. reflexivity.
Qed.

Lemma submissions_idle (l : list (jsstr * Settled)) (w : World) :
  isProcessing (hooks w) = false -> pending w = [] ->
  Forall (fun qo => trim (fst qo) <> []) l ->
  conversation (hooks (submissions w l)) = conversation (hooks w) ++ flat_map exchange l /\
  isProcessing (hooks (submissions w l)) = false /\
  pending (submissions w l) = [].
Proof.
  revert w. induction l as [|[q o] l IH]; intros w P Hp F.
  - simpl. rewrite app_nil_r. auto.
  - inversion F as [|x y Hq F']. subst x y. simpl in Hq.
    change (submissions w ((q, o) :: l)) with (submissions (submission w q o) l).
    destruct (IH (submission w q o)) as (H1 & H2 & H3).
    + rewrite submission_idle by assumption. reflexivity.
    + rewrite submission_idle by assumption. reflexivity.
    + exact F'.
    + rewrite H1, H2, H3. repeat split.
      rewrite submission_idle by assumption.
      cbn [hooks conversation flat_map]. rewrite <- app_assoc. reflexivity.
Qed.

(** C6.  Starting from a world with no request in flight, a sequence of
    submissions of non-blank queries (each typed, submitted and settled,
    with whatever outcome) appends to the conversation, for each submission
    in order, its user turn directly followed by its assistant turn and
    nothing else.  From the empty conversation N submissions give a
    conversation of length 2N made of user/assistant pairs. *)
Theorem conversation_after_submissions (w : World) (l : list (jsstr * Settled)) :
  isProcessing (hooks w) = false -> pending w = [] ->
  Forall (fun qo => trim (fst qo) <> []) l ->
  conversation (hooks (submissions w l)) = conversation (hooks w) ++ flat_map exchange l /\
  List.length (conversation (hooks (submissions w l))) =
    List.length (conversation (hooks w)) + 2 * List.length l /\
  (conversation (hooks w) = [] ->
   List.length (conversation (hooks (submissions w l))) = 2 * List.length l /\
   user_assistant_pairs (conversation (hooks (submissions w l))) = true).
Proof.
  intros P Hp F. destruct (submissions_idle l w P Hp F) as (H & _ & _).
  rewrite H. split; [reflexivity|]. split.
  - rewrite length_app, length_exchanges. reflexivity.
  - intros E. rewrite E. simpl app. split.
    + apply length_exchanges.
    + apply user_assistant_pairs_exchanges.
Qed.

Lemma conversation_after_submissions_witness :
  isProcessing (hooks initial) = false /\ pending initial = [] /\
  Forall (fun qo => trim (fst qo) <> []) two_answers /\
  conversation (hooks (submissions initial two_answers)) =
    conversation (hooks initial) ++ flat_map exchange two_answers /\
  List.length (conversation (hooks (submissions initial two_answers))) =
    List.length (conversation (hooks initial)) + 2 * List.length two_answers /\
  (conversation (hooks initial) = [] ->
   List.length (conversation (hooks (submissions initial two_answers))) =
     2 * List.length two_answers /\
   user_assistant_pairs (conversation (hooks (submissions initial two_answers))) = true).
Proof.
  assert (F : Forall (fun qo => trim (fst qo) <> []) two_answers).
  { repeat constructor; discriminate. }
  split; [reflexivity|]. split; [reflexivity|]. split; [exact F|].
  apply (conversation_after_submissions initial two_answers);
    [reflexivity | reflexivity | exact F].
Defined.

(** C7.  A submission of a non-blank query appends the user turn at once,
    while the request is still pending; no event before the settlement
    changes the conversation; the settlement appends one assistant turn
    after the user turn and removes nothing, also when the call failed. *)
Theorem user_turn_is_optimistic (w : World) (es : list Event) (o : Settled) :
  reachable w -> process_disabled (hooks w) = false ->
  forallb (fun e => negb (is_settle e)) es = true ->
  let q := query (hooks w) in
  let w1 := dispatch w ClickProcess in
  let w2 := dispatch (run w1 es) (Settle 0 o) in
  conversation (hooks w1) = conversation (hooks w) ++ [userMessage q] /\
  pending w1 = [Request.mk q (conversation (hooks w))] /\
  conversation (hooks (run w1 es)) = conversation (hooks w1) /\
  conversation (hooks w2) = conversation (hooks w1) ++ [reply o] /\
  role (reply o) = lit "assistant" /\
  pending w2 = [] /\
  (forall error, o = Rejected error ->
     conversation (hooks w2) = conversation (hooks w) ++ [userMessage q; errorMessage error]).
Proof.
  intros R D Hes q w1 w2.
  unfold process_disabled in D. apply orb_false_elim in D. destruct D as [T P].
  apply negb_false_iff in T.
  destruct (reachable_idle w R P) as [_ Hp].
  assert (E1 : w1 = mkWorld (mkHooks (conversation (hooks w) ++ [userMessage q]) q true)
                            [Request.mk q (conversation (hooks w))] (console w)).
  { unfold w1. cbn [dispatch]. unfold process_disabled. rewrite T, P. cbn [negb orb].
    rewrite exec_handleProcessQuery, T, historyForApi_id, Hp. reflexivity. }
  assert (R1 : reachable w1) by (apply reach_dispatch; exact R).
  assert (P1 : isProcessing (hooks w1) = true) by (rewrite E1; reflexivity).
  assert (E2 : run w1 es = w1) by (apply run_processing; assumption).
  assert (E3 : conversation (hooks w2) = conversation (hooks w1) ++ [reply o] /\
               pending w2 = []).
  { unfold w2. rewrite E2, dispatch_settle_processing by assumption.
    split; reflexivity. }
  destruct E3 as [E3 E4].
  split; [rewrite E1; reflexivity|]. split; [rewrite E1; reflexivity|].
  split; [rewrite E2; reflexivity|]. split; [exact E3|].
  split; [apply reply_assistant|]. split; [exact E4|].
  intros error ->. rewrite E3, E1. cbn [hooks conversation reply].
  rewrite <- app_assoc. reflexivity.
Qed.

Lemma user_turn_is_optimistic_witness :
  reachable w_typed /\ process_disabled (hooks w_typed) = false /\
  forallb (fun e => negb (is_settle e)) [ClickClear; ClickProcess] = true /\
  let q := query (hooks w_typed) in
  let w1 := dispatch w_typed ClickProcess in
  let w2 := dispatch (run w1 [ClickClear; ClickProcess]) (Settle 0 (Rejected network_error)) in
  conversation (hooks w1) = conversation (hooks w_typed) ++ [userMessage q] /\
  pending w1 = [Request.mk q (conversation (hooks w_typed))] /\
  conversation (hooks (run w1 [ClickClear; ClickProcess])) = conversation (hooks w1) /\
  conversation (hooks w2) = conversation (hooks w1) ++ [reply (Rejected network_error)] /\
  role (reply (Rejected network_error)) = lit "assistant" /\
  pending w2 = [] /\
  (forall error, Rejected network_error = Rejected error ->
     conversation (hooks w2) =
       conversation (hooks w_typed) ++ [userMessage q; errorMessage error]).
Proof.
  split; [exact reachable_w_typed|]. split; [reflexivity|]. split; [reflexivity|].
  apply (user_turn_is_optimistic w_typed [ClickClear; ClickProcess] (Rejected network_error));
    [exact reachable_w_typed | reflexivity | reflexivity].
Defined.






Lemma role_ok_dispatch (w : World) (e : Event) :
  Forall role_ok (conversation (hooks w)) ->
  Forall role_ok (conversation (hooks (dispatch w e))).
Proof.
  intros H.
  assert (S : Forall role_ok (conversation (hooks (exec (handleProcessQuery (hooks w)) w)))).
  { rewrite exec_handleProcessQuery.
    destruct (truthy (JStr (trim (query (hooks w))))); [|exact H].
    simpl. apply Forall_app. split; [exact H|].
    constructor; [left; reflexivity | constructor]. }
  destruct e as [v|key sh| | |i o]; cbn [dispatch].
  - destruct (textarea_disabled (hooks w)); exact H.
  - destruct (textarea_disabled (hooks w)); [exact H|].
    rewrite exec_handleKeyPress. destruct (is_submit (KeyPress key sh)); assumption.
  - destruct (process_disabled (hooks w)); assumption.
  - destruct (clear_disabled (hooks w)); [exact H | constructor].
  - destruct (nth_error (pending w) i); [|exact H].
    unfold exec. rewrite run_settled. cbn [snd hooks conversation forget].
    apply Forall_app. split; [exact H|].
    constructor; [right; apply reply_assistant | constructor].
Qed.

(** C9.  The turn made from a submitted query has role user, the turns made
    from a backend answer or failure have role assistant, no event adds a
    turn of another role, and so in every reachable world every turn of the
    conversation has role user or assistant. *)
Theorem roles_are_user_or_assistant (w : World) :
  (forall q, role (userMessage q) = lit "user") /\
  (forall response message, role (assistantMessage response message) = lit "assistant") /\
  (forall error, role (errorMessage error) = lit "assistant") /\
  (forall e, Forall role_ok (conversation (hooks w)) ->
             Forall role_ok (conversation (hooks (dispatch w e)))) /\
  (reachable w -> Forall role_ok (conversation (hooks w))).
Proof.
  repeat split.
  - intros e. apply role_ok_dispatch.
  - induction 1 as [|w0 e0 _ IH]; [constructor | apply role_ok_dispatch, IH].
Qed.

Lemma roles_are_user_or_assistant_witness :
  reachable w_answered /\
  Forall role_ok (conversation (hooks w_answered)) /\
  Forall role_ok (conversation (hooks (dispatch w_answered ClickClear))).
Proof.
  destruct (roles_are_user_or_assistant w_answered) as (_ & _ & _ & H4 & H5).
  split; [exact reachable_w_answered|].
  split; [exact (H5 reachable_w_answered)|].
  exact (H4 ClickClear (H5 reachable_w_answered)).
Defined.

(** C10.  The query cell is left as it is by a settlement that failed and by
    [handleClearHistory]; the only events that change it are an edit of the
    text area and the settlement of a fulfilled request, which empties it.
    After a failed submission the cell still holds the submitted query and
    the Process button is enabled again. *)
Theorem query_cleared_only_on_success (w : World) :
  (forall error,
     query (hooks (exec (handleProcessQuery_settled (Rejected error)) w)) = query (hooks w)) /\
  query (hooks (exec handleClearHistory w)) = query (hooks w) /\
  (forall e, query (hooks (dispatch w e)) <> query (hooks w) ->
     (exists value, e = Change value) \/
     (exists i response, e = Settle i (Fulfilled response) /\
                         query (hooks (dispatch w e)) = lit "")) /\
  (reachable w -> isProcessing (hooks w) = true ->
   forall error,
     exists req,
       pending w = [req] /\
       query (hooks (dispatch w (Settle 0 (Rejected error)))) = Request.query req /\
       process_disabled (hooks (dispatch w (Settle 0 (Rejected error)))) = false).
Proof.
  split; [reflexivity|]. split; [reflexivity|]. split.
  - intros e H. destruct e as [v|key sh| | |i o].
    + left. eexists. reflexivity.
    + exfalso. apply H. cbn [dispatch].
      destruct (textarea_disabled (hooks w)); [reflexivity|].
      rewrite exec_handleKeyPress. destruct (is_submit (KeyPress key sh)); [|reflexivity].
      rewrite exec_handleProcessQuery.
      destruct (truthy (JStr (trim (query (hooks w))))); reflexivity.
    + exfalso. apply H. cbn [dispatch].
      destruct (process_disabled (hooks w)); [reflexivity|].
      rewrite exec_handleProcessQuery.
      destruct (truthy (JStr (trim (query (hooks w))))); reflexivity.
    + exfalso. apply H. cbn [dispatch].
      destruct (clear_disabled (hooks w)); reflexivity.
    + right. revert H. cbn [dispatch].
      destruct (nth_error (pending w) i); [|intros H; exfalso; apply H; reflexivity].
      unfold exec. rewrite run_settled. cbn [snd hooks query forget].
      destruct o as [response|error].
      * intros H. exists i, response. split; [reflexivity|].
        cbn [answered] in *.
        destruct (negb (nullish (AxiosResponse.data response)));
          [reflexivity | exfalso; apply H; reflexivity].
      * intros H. exfalso. apply H. reflexivity.
  - intros R P error.
    destruct (reachable_processing w R P) as (l & T & _ & Hp).
    exists (Request.mk (query (hooks w)) (flat_map exchange l)).
    rewrite dispatch_settle_processing by assumption.
    split; [exact Hp|]. split; [reflexivity|].
    unfold process_disabled. cbn [hooks query isProcessing answered].
    rewrite T. reflexivity.
Qed.

Lemma query_cleared_only_on_success_witness :
  reachable w_busy /\ isProcessing (hooks w_busy) = true /\
  query (hooks (exec (handleProcessQuery_settled (Rejected network_error)) w_busy)) =
    query (hooks w_busy) /\
  query (hooks (exec handleClearHistory w_busy)) = query (hooks w_busy) /\
  exists req,
    pending w_busy = [req] /\
    query (hooks (dispatch w_busy (Settle 0 (Rejected network_error)))) = Request.query req /\
    process_disabled (hooks (dispatch w_busy (Settle 0 (Rejected network_error)))) = false.
Proof.
  destruct (query_cleared_only_on_success w_busy) as (H1 & H2 & _ & H4).
  split; [exact reachable_w_busy|]. split; [reflexivity|].
  split; [exact (H1 network_error)|]. split; [exact H2|].
  exact (H4 reachable_w_busy eq_refl network_error).
Defined.

(** ** Further properties of the handlers *)

Lemma exec_start_blank (r : Hooks) (w : World) :
  truthy (JStr (trim (query r))) = false -> exec (handleProcessQuery r) w = w.
Proof.
  intros T. rewrite exec_handleProcessQuery, T. reflexivity.
Qed.

(** X1.  Enter without Shift in the text area does exactly what a click on
    the Process button does, in every world; any other key, and Enter with
    Shift, changes nothing. *)
Theorem enter_is_the_process_button (w : World) :
  dispatch w (KeyPress (lit "Enter") false) = dispatch w ClickProcess /\
  dispatch w (KeyPress (lit "Enter") true) = w /\
  (forall key shiftKey,
     key <> lit "Enter" -> dispatch w (KeyPress key shiftKey) = w).
Proof.
  split; [|split].
  - cbn [dispatch]. unfold textarea_disabled, process_disabled.
    destruct (isProcessing (hooks w)); [rewrite orb_true_r; reflexivity|].
    rewrite orb_false_r, exec_handleKeyPress.
    change (is_submit (KeyPress (lit "Enter") false)) with true. cbv iota.
    destruct (truthy (JStr (trim (query (hooks w))))) eqn:T; [reflexivity|].
    apply exec_start_blank. exact T.
  - cbn [dispatch]. destruct (textarea_disabled (hooks w)); reflexivity.
  - intros key sh H. cbn [dispatch].
    destruct (textarea_disabled (hooks w)); [reflexivity|].
    rewrite exec_handleKeyPress. cbn [is_submit]. unfold jsstr_eqb.
    destruct (list_eq_dec N.eq_dec key (lit "Enter")); [contradiction | reflexivity].
Qed.

Lemma enter_is_the_process_button_witness :
  dispatch w_typed (KeyPress (lit "Enter") false) = dispatch w_typed ClickProcess /\
  dispatch w_typed (KeyPress (lit "Enter") false) <> w_typed /\
  lit "a" <> lit "Enter" /\
  dispatch w_typed (KeyPress (lit "a") false) = w_typed.
Proof.
  destruct (enter_is_the_process_button w_typed) as (H1 & _ & H3).
  split; [exact H1|]. split; [discriminate|]. split; [discriminate|].
  apply H3. discriminate.
Defined.

(** X2.  No event other than a click on Clear History removes or alters a
    turn: the conversation after the event is the conversation before it
    with at most one turn appended. *)
Theorem events_only_append (w : World) (e : Event) :
  is_clear e = false ->
  exists suffix,
    conversation (hooks (dispatch w e)) = conversation (hooks w) ++ suffix /\
    List.length suffix <= 1.
Proof.
  intros C.
  assert (S : exists suffix,
             conversation (hooks (exec (handleProcessQuery (hooks w)) w)) =
               conversation (hooks w) ++ suffix /\ List.length suffix <= 1).
  { rewrite exec_handleProcessQuery.
    destruct (truthy (JStr (trim (query (hooks w))))).
    - eexists. split; [reflexivity | simpl; lia].
    - exists []. rewrite app_nil_r. split; [reflexivity | simpl; lia]. }
  assert (N : exists suffix,
             conversation (hooks w) = conversation (hooks w) ++ suffix /\
             List.length suffix <= 1).
  { exists []. rewrite app_nil_r. split; [reflexivity | simpl; lia]. }
  destruct e as [v|key sh| | |i o]; try discriminate; cbn [dispatch].
  - destruct (textarea_disabled (hooks w)); exact N.
  - destruct (textarea_disabled (hooks w)); [exact N|].
    rewrite exec_handleKeyPress. destruct (is_submit (KeyPress key sh)); assumption.
  - destruct (process_disabled (hooks w)); assumption.
  - destruct (nth_error (pending w) i); [|exact N].
    unfold exec. rewrite run_settled. cbn [snd hooks conversation forget].
    eexists. split; [reflexivity | simpl; lia].
Qed.

Lemma events_only_append_witness :
  is_clear (Settle 0 (Rejected network_error)) = false /\
  exists suffix,
    conversation (hooks (dispatch w_busy (Settle 0 (Rejected network_error)))) =
      conversation (hooks w_busy) ++ suffix /\
    List.length suffix <= 1.
Proof.
  split; [reflexivity|].
  apply (events_only_append w_busy (Settle 0 (Rejected network_error))). reflexivity.
Defined.

Lemma length_remove_nth {A} (i : nat) (l : list A) :
  i < List.length l -> List.length (remove_nth i l) = List.length l - 1.
Proof.
  intros H. unfold remove_nth. rewrite length_app, length_firstn, length_skipn. lia.
Qed.

(** X3.  Whatever the outcome of a pending request (an answer, a payload the
    handler cannot read, a rejection), its settlement appends exactly one
    assistant turn, takes the request off the pending ones and sets
    [isProcessing] to false, so the text area is enabled again; settling a
    request that is not pending changes nothing. *)
Theorem settlement_ends_processing (w : World) (i : nat) (o : Settled) :
  (List.length (pending w) <= i -> dispatch w (Settle i o) = w) /\
  (i < List.length (pending w) ->
   isProcessing (hooks (dispatch w (Settle i o))) = false /\
   textarea_disabled (hooks (dispatch w (Settle i o))) = false /\
   List.length (pending (dispatch w (Settle i o))) = List.length (pending w) - 1 /\
   exists t,
     role t = lit "assistant" /\
     conversation (hooks (dispatch w (Settle i o))) = conversation (hooks w) ++ [t]).
Proof.
  split.
  - intros H. apply nth_error_None in H. cbn [dispatch]. rewrite H. reflexivity.
  - intros H. cbn [dispatch].
    destruct (nth_error (pending w) i) eqn:E.
    + unfold exec. rewrite run_settled.
      cbn [snd hooks conversation isProcessing pending forget textarea_disabled].
      repeat split.
      * apply length_remove_nth. exact H.
      * exists (reply o). split; [apply reply_assistant | reflexivity].
    + apply nth_error_None in E. lia.
Qed.

Lemma settlement_ends_processing_witness :
  0 < List.length (pending w_busy) /\
  isProcessing (hooks w_busy) = true /\
  isProcessing (hooks (dispatch w_busy (Settle 0 (Fulfilled (AxiosResponse.mk JNull 200))))) = false /\
  List.length (pending (dispatch w_busy (Settle 0 (Fulfilled (AxiosResponse.mk JNull 200))))) =
    List.length (pending w_busy) - 1 /\
  List.length (pending w_busy) <= 3 /\
  dispatch w_busy (Settle 3 (Fulfilled (AxiosResponse.mk JNull 200))) = w_busy.
Proof.
  destruct (settlement_ends_processing w_busy 0 (Fulfilled (AxiosResponse.mk JNull 200)))
    as [_ H].
  assert (L : 0 < List.length (pending w_busy)) by (simpl; lia).
  destruct (H L) as (H1 & _ & H3 & _).
  destruct (settlement_ends_processing w_busy 3 (Fulfilled (AxiosResponse.mk JNull 200)))
    as [H4 _].
  assert (L3 : List.length (pending w_busy) <= 3) by (simpl; lia).
  split; [exact L|]. split; [reflexivity|]. split; [exact H1|]. split; [exact H3|].
  split; [exact L3 | exact (H4 L3)].
Defined.

(** X4.  Every request the backend has been handed and not yet answered, in
    any reachable world, carries a query that is not blank (the text of the
    query cell) and a history made of complete exchanges: user turns each
    directly followed by an assistant turn. *)
Theorem pending_requests_are_well_formed (w : World) :
  reachable w ->
  Forall (fun req =>
            trim (Request.query req) <> [] /\
            Request.query req = query (hooks w) /\
            user_assistant_pairs (Request.history req) = true /\
            conversation (hooks w) = Request.history req ++ [userMessage (Request.query req)])
         (pending w).
Proof.
  intros R. destruct (isProcessing (hooks w)) eqn:P.
  - destruct (reachable_processing w R P) as (l & T & Hc & Hp).
    rewrite Hp. constructor; [|constructor]. cbn [Request.query Request.history].
    split; [apply truthy_JStr; exact T|]. split; [reflexivity|].
    split; [apply user_assistant_pairs_exchanges | exact Hc].
  - destruct (reachable_idle w R P) as [_ Hp]. rewrite Hp. constructor.
Qed.

Lemma pending_requests_are_well_formed_witness :
  let w := run w_answered [Change (lit "more"); ClickProcess] in
  reachable w /\ pending w <> [] /\
  Forall (fun req =>
            trim (Request.query req) <> [] /\
            Request.query req = query (hooks w) /\
            user_assistant_pairs (Request.history req) = true /\
            conversation (hooks w) = Request.history req ++ [userMessage (Request.query req)])
         (pending w).
Proof.
  assert (R : reachable (run w_answered [Change (lit "more"); ClickProcess])).
  { apply reachable_run, reachable_w_answered. }
  split; [exact R|]. split; [discriminate|].
  apply (pending_requests_are_well_formed
           (run w_answered [Change (lit "more"); ClickProcess])).
  exact R.
Defined.

Lemma console_start (r : Hooks) (w : World) :
  console (exec (handleProcessQuery r) w) = console w.
Proof.
  rewrite exec_handleProcessQuery.
  destruct (truthy (JStr (trim (query r)))); reflexivity.
Qed.

(** X5.  [console.error] is reached by one path only: an event writes to
    the console exactly when it is the rejection of a pending request, and
    then it writes that rejection's error, once.  A fulfilled request writes
    nothing, also when its payload makes the handler fail. *)
Theorem only_rejections_are_logged (w : World) (e : Event) :
  console (dispatch w e) = console w ++ logged w e.
Proof.
  destruct e as [v|key sh| | |i o]; cbn [dispatch logged]; rewrite ?app_nil_r.
  - destruct (textarea_disabled (hooks w)); reflexivity.
  - destruct (textarea_disabled (hooks w)); [reflexivity|].
    rewrite exec_handleKeyPress.
    destruct (is_submit (KeyPress key sh)); [apply console_start | reflexivity].
  - destruct (process_disabled (hooks w)); [reflexivity | apply console_start].
  - destruct (clear_disabled (hooks w)); reflexivity.
  - destruct (nth_error (pending w) i).
    + unfold exec. rewrite run_settled. cbn [snd console forget].
      destruct o; [rewrite app_nil_r|]; reflexivity.
    + destruct o; rewrite app_nil_r; reflexivity.
Qed.

Lemma console_submission (w : World) (q : jsstr) (o : Settled) :
  isProcessing (hooks w) = false -> pending w = [] -> trim q <> [] ->
  console (submission w q o) = console w ++ rejections [(q, o)] /\
  isProcessing (hooks (submission w q o)) = false /\
  pending (submission w q o) = [].
Proof.
  intros P Hp T. rewrite submission_idle by assumption.
  cbn [console hooks isProcessing pending rejections flat_map snd].
  destruct o; rewrite ?app_nil_r; auto.
Qed.

(** X6.  After a sequence of submissions of non-blank queries, started with
    no request in flight, the console has gained the errors of exactly the
    rejected calls, in the order of the submissions. *)
Theorem console_after_submissions (w : World) (l : list (jsstr * Settled)) :
  isProcessing (hooks w) = false -> pending w = [] ->
  Forall (fun qo => trim (fst qo) <> []) l ->
  console (submissions w l) = console w ++ rejections l.
Proof.
  revert w. induction l as [|[q o] l IH]; intros w P Hp F.
  - simpl. rewrite app_nil_r. reflexivity.
  - inversion F as [|x y Hq F']. subst x y. simpl in Hq.
    change (submissions w ((q, o) :: l)) with (submissions (submission w q o) l).
    destruct (console_submission w q o P Hp Hq) as (H1 & H2 & H3).
    rewrite IH by assumption. rewrite H1, <- app_assoc.
    unfold rejections. simpl. rewrite app_nil_r. reflexivity.
Qed.

Lemma console_after_submissions_witness :
  let l := [(lit "a", Rejected network_error);
            (lit "b", Fulfilled (AxiosResponse.mk JNull 200));
            (lit "c", Rejected (JSError.mk (lit "AxiosError") (lit "")))] in
  isProcessing (hooks initial) = false /\ pending initial = [] /\
  Forall (fun qo => trim (fst qo) <> []) l /\
  console (submissions initial l) = console initial ++ rejections l.
Proof.
  cbv zeta.
  assert (F : Forall (fun qo : jsstr * Settled => trim (fst qo) <> [])
                [(lit "a", Rejected network_error);
                 (lit "b", Fulfilled (AxiosResponse.mk JNull 200));
                 (lit "c", Rejected (JSError.mk (lit "AxiosError") (lit "")))]).
  { repeat constructor; discriminate. }
  split; [reflexivity|]. split; [reflexivity|]. split; [exact F|].
  apply (console_after_submissions initial); [reflexivity | reflexivity | exact F].
Defined.

Lemma forallb_false_exists {A} (f : A -> bool) (l : list A) :
  forallb f l = false <-> exists x, In x l /\ f x = false.
Proof.
  induction l as [|a l IH]; simpl.
  - split; [discriminate | intros (x & [] & _)].
  - destruct (f a) eqn:E; simpl.
    + rewrite IH. split.
      * intros (x & Hx & Fx). exists x. auto.
      * intros (x & [<-|Hx] & Fx); [congruence | exists x; auto].
    + split; [intros _; exists a; auto | reflexivity].
Qed.

(** X7.  The Process button is enabled exactly when no request is in flight
    and the query holds at least one code unit that is not white space. *)
Theorem process_button_enabled_iff (r : Hooks) :
  process_disabled r = false <->
  isProcessing r = false /\ exists c, In c (query r) /\ isWhiteSpace c = false.
Proof.
  unfold process_disabled. rewrite orb_false_iff, negb_false_iff, truthy_JStr.
  rewrite <- forallb_false_exists.
  assert (E : trim (query r) <> [] <-> forallb isWhiteSpace (query r) = false).
  { rewrite trim_nil. destruct (forallb isWhiteSpace (query r)); split; congruence. }
  rewrite E. tauto.
Qed.

Lemma process_button_enabled_iff_witness :
  process_disabled (mkHooks [] [32; 104; 105; 10]%N false) = false /\
  process_disabled (mkHooks [] [32; 9; 10; 160; 8232; 65279]%N false) = true.
Proof.
  split.
  - apply (process_button_enabled_iff (mkHooks [] [32; 104; 105; 10]%N false)).
    split; [reflexivity|]. exists 104%N. split; [simpl; auto | reflexivity].
  - destruct (process_disabled (mkHooks [] [32; 9; 10; 160; 8232; 65279]%N false)) eqn:E;
      [reflexivity | discriminate E].
Defined.

(** X8.  A fulfilled request whose payload is [null] or [undefined] ends
    like a failed one: reading [response.message] throws inside the [try]
    block, the [catch] block appends an assistant turn that starts with
    "Error: ", and the query cell keeps its text.  Unlike a rejection it is
    not written to the console. *)
Theorem nullish_payload_is_a_failure (w : World) (response : AxiosResponse.t) :
  nullish (AxiosResponse.data response) = true ->
  (exists detail,
     detail <> [] /\
     conversation (hooks (exec (handleProcessQuery_settled (Fulfilled response)) w)) =
       conversation (hooks w) ++
       [mkTurn (lit "assistant") (JStr (lit "Error: " ++ detail))]) /\
  query (hooks (exec (handleProcessQuery_settled (Fulfilled response)) w)) = query (hooks w) /\
  isProcessing (hooks (exec (handleProcessQuery_settled (Fulfilled response)) w)) = false /\
  console (exec (handleProcessQuery_settled (Fulfilled response)) w) = console w /\
  completion (handleProcessQuery_settled (Fulfilled response)) w = Normal tt.
Proof.
  intros N. destruct response as [d st]. cbn [AxiosResponse.data] in N.
  destruct d; try discriminate N.
  - split; [|repeat split].
    exists (lit "Cannot read properties of undefined (reading 'message')").
    split; [discriminate | reflexivity].
  - split; [|repeat split].
    exists (lit "Cannot read properties of null (reading 'message')").
    split; [discriminate | reflexivity].
Qed.

Lemma nullish_payload_is_a_failure_witness :
  nullish (AxiosResponse.data (AxiosResponse.mk JNull 200)) = true /\
  query (hooks (exec (handleProcessQuery_settled (Fulfilled (AxiosResponse.mk JNull 200))) w_busy)) =
    query (hooks w_busy) /\
  console (exec (handleProcessQuery_settled (Fulfilled (AxiosResponse.mk JNull 200))) w_busy) =
    console w_busy.
Proof.
  destruct (nullish_payload_is_a_failure w_busy (AxiosResponse.mk JNull 200) eq_refl)
    as (_ & H2 & _ & H4 & _).
  split; [reflexivity|]. split; [exact H2 | exact H4].
Defined.

(** X9.  After a submission, started with no request in flight, the Process
    button is disabled when the call was answered (the query cell is empty)
    and enabled when it failed.  Pressing it after a failure sends the same
    query again, with a history that now ends in the failed exchange: the
    earlier user turn and the "Error: ..." assistant turn. *)
Theorem retry_after_failure (w : World) (q : jsstr) (o : Settled) :
  isProcessing (hooks w) = false -> pending w = [] -> trim q <> [] ->
  process_disabled (hooks (submission w q o)) = answered o /\
  (answered o = true ->
   dispatch (submission w q o) ClickProcess = submission w q o) /\
  (answered o = false ->
   pending (dispatch (submission w q o) ClickProcess) =
     [Request.mk q (conversation (hooks w) ++ [userMessage q; reply o])] /\
   conversation (hooks (dispatch (submission w q o) ClickProcess)) =
     conversation (hooks w) ++ [userMessage q; reply o; userMessage q]).
Proof.
  intros P Hp T. rewrite submission_idle by assumption.
  pose proof T as T'. apply truthy_JStr in T'.
  destruct (answered o) eqn:A.
  - split; [reflexivity|]. split; [reflexivity | discriminate].
  - split; [|split; [discriminate|]].
    + unfold process_disabled. cbn [hooks query isProcessing]. rewrite T'. reflexivity.
    + intros _. cbn [dispatch hooks]. unfold process_disabled.
      cbn [query isProcessing]. rewrite T'. cbn [negb orb].
      rewrite exec_handleProcessQuery. cbn [hooks query conversation pending].
      rewrite T', historyForApi_id. cbn [pending hooks conversation exchange fst snd].
      rewrite <- app_assoc. split; reflexivity.
Qed.

Lemma retry_after_failure_witness :
  isProcessing (hooks initial) = false /\ pending initial = [] /\ trim (lit "hi") <> [] /\
  process_disabled (hooks (submission initial (lit "hi") (Rejected network_error))) =
    answered (Rejected network_error) /\
  pending (dispatch (submission initial (lit "hi") (Rejected network_error)) ClickProcess) =
    [Request.mk (lit "hi")
       (conversation (hooks initial) ++
        [userMessage (lit "hi"); reply (Rejected network_error)])].
Proof.
  assert (T : trim (lit "hi") <> []) by discriminate.
  destruct (retry_after_failure initial (lit "hi") (Rejected network_error)
              eq_refl eq_refl T) as (H1 & _ & H3).
  split; [reflexivity|]. split; [reflexivity|]. split; [exact T|].
  split; [exact H1|]. apply H3. reflexivity.
Defined.

(** ** The rendered tree *)

Lemma strong_messages (n i : nat) (l : list Turn) :
  filter (tag_is "strong") (flat_map descendants (mapi_from (message_view n) i l)) =
  map (fun t => Element "strong" [] [Text (label t)]) l.
Proof.
  revert i. induction l as [|a l IH]; intros i.
  - reflexivity.
  - cbn [mapi_from flat_map]. rewrite filter_app, IH.
    unfold message_view. cbn [descendants flat_map app].
    destruct (Z.of_nat i <? Z.of_nat n - 1)%Z; reflexivity.
Qed.

Lemma p_messages (n i : nat) (l : list Turn) :
  filter (tag_is "p") (flat_map descendants (mapi_from (message_view n) i l)) =
  map (fun t => Element "p" [] [Child (content t)]) l.
Proof.
  revert i. induction l as [|a l IH]; intros i.
  - reflexivity.
  - cbn [mapi_from flat_map]. rewrite filter_app, IH.
    unfold message_view. cbn [descendants flat_map app].
    destruct (Z.of_nat i <? Z.of_nat n - 1)%Z; reflexivity.
Qed.

Lemma hr_messages (n i : nat) (l : list Turn) :
  n = i + List.length l ->
  List.length (filter (tag_is "hr")
                 (flat_map descendants (mapi_from (message_view n) i l))) =
  List.length l - 1.
Proof.
  revert i. induction l as [|a l IH]; intros i H.
  - reflexivity.
  - cbn [mapi_from flat_map]. rewrite filter_app, length_app, IH
      by (simpl in H; lia).
    unfold message_view. cbn [descendants flat_map app]. simpl in H.
    destruct (Z.of_nat i <? Z.of_nat n - 1)%Z eqn:E.
    + apply Z.ltb_lt in E. simpl. lia.
    + apply Z.ltb_ge in E. simpl. lia.
Qed.

Lemma other_messages (t : string) (n i : nat) (l : list Turn) :
  String.eqb t "div" = false -> String.eqb t "strong" = false ->
  String.eqb t "p" = false -> String.eqb t "hr" = false ->
  filter (tag_is t) (flat_map descendants (mapi_from (message_view n) i l)) = [].
Proof.
  intros H1 H2 H3 H4. revert i. induction l as [|a l IH]; intros i.
  - reflexivity.
  - cbn [mapi_from flat_map]. rewrite filter_app, IH, app_nil_r.
    unfold message_view. cbn [descendants flat_map app].
    destruct (Z.of_nat i <? Z.of_nat n - 1)%Z;
      cbn [filter tag_is app descendants flat_map];
      rewrite ?H1, ?H2, ?H3, ?H4; reflexivity.
Qed.

Ltac open_view r :=
  unfold by_tag, App, mapi;
  destruct (0 <? List.length (conversation r)) eqn:L;
  cbn -[lit mapi_from message_view List.length];
  rewrite ?app_nil_r, ?filter_app.

Lemma by_tag_strong (r : Hooks) :
  by_tag "strong" (App r) =
  map (fun t => Element "strong" [] [Text (label t)]) (conversation r).
Proof.
  open_view r.
  - rewrite strong_messages. cbn -[lit]. apply app_nil_r.
  - destruct (conversation r); [reflexivity | discriminate L].
Qed.

Lemma by_tag_p (r : Hooks) :
  by_tag "p" (App r) =
  map (fun t => Element "p" [] [Child (content t)]) (conversation r).
Proof.
  open_view r.
  - rewrite p_messages. cbn -[lit]. apply app_nil_r.
  - destruct (conversation r); [reflexivity | discriminate L].
Qed.

Lemma by_tag_button (r : Hooks) :
  by_tag "button" (App r) =
  [Element "button"
     [("onClick"%string, AFun HandleProcessQuery);
      ("disabled"%string, ABool (process_disabled r));
      ("className"%string, AStr (lit "process-button"))]
     [Text (if isProcessing r then lit "Processing..." else lit "Process Query")];
   Element "button"
     [("onClick"%string, AFun HandleClearHistory);
      ("disabled"%string, ABool (clear_disabled r));
      ("className"%string, AStr (lit "clear-button"))]
     [Text (lit "Clear History")]].
Proof.
  open_view r.
  - rewrite other_messages by reflexivity. reflexivity.
  - reflexivity.
Qed.

Lemma by_tag_textarea (r : Hooks) :
  map (attr_of "disabled") (by_tag "textarea" (App r)) = [Some (ABool (isProcessing r))] /\
  map (attr_of "value") (by_tag "textarea" (App r)) = [Some (AStr (query r))].
Proof.
  open_view r.
  - rewrite other_messages by reflexivity. split; reflexivity.
  - split; reflexivity.
Qed.

(** X10.  The history shows every turn of the conversation once, in the
    order of the conversation: the labels read "You:" for a turn with role
    user and "Assistant:" for any other, and the paragraphs hold the turns'
    contents unchanged. *)
Theorem history_shows_every_turn (r : Hooks) :
  flat_map children_of (by_tag "strong" (App r)) =
    map (fun t => Text (label t)) (conversation r) /\
  flat_map children_of (by_tag "p" (App r)) =
    map (fun t => Child (content t)) (conversation r).
Proof.
  rewrite by_tag_strong, by_tag_p. split.
  - induction (conversation r) as [|a c IH]; simpl; [|rewrite IH]; reflexivity.
  - induction (conversation r) as [|a c IH]; simpl; [|rewrite IH]; reflexivity.
Qed.

(** X11.  The history panel with its heading is rendered exactly when the
    conversation is not empty, and the rules that separate the turns are one
    fewer than the turns: none after the last turn. *)
Theorem separators_between_turns (r : Hooks) :
  List.length (by_tag "hr" (App r)) = List.length (conversation r) - 1 /\
  List.length (by_tag "h2" (App r)) = (if 0 <? List.length (conversation r) then 1 else 0).
Proof.
  split.
  - open_view r.
    + rewrite length_app, hr_messages by reflexivity. simpl. lia.
    + apply Nat.ltb_ge in L. simpl. lia.
  - open_view r.
    + rewrite other_messages by reflexivity. reflexivity.
    + reflexivity.
Qed.

Lemma label_exchanges (l : list (jsstr * Settled)) :
  map label (flat_map exchange l) =
  List.concat (repeat [lit "You:"; lit "Assistant:"] (List.length l)).
Proof.
  induction l as [|[q o] l IH]; simpl.
  - reflexivity.
  - rewrite IH. unfold label at 2, is_user. rewrite reply_assistant. reflexivity.
Qed.

(** X12.  In every reachable world the labels of the history alternate,
    starting with "You:": a number of "You:", "Assistant:" pairs, followed
    by one more "You:" exactly while a request is in flight. *)
Theorem labels_alternate (w : World) :
  reachable w ->
  exists n,
    flat_map children_of (by_tag "strong" (App (hooks w))) =
    map Text (List.concat (repeat [lit "You:"; lit "Assistant:"] n) ++
              (if isProcessing (hooks w) then [lit "You:"] else [])).
Proof.
  intros R.
  assert (E : flat_map children_of (by_tag "strong" (App (hooks w))) =
              map Text (map label (conversation (hooks w)))).
  { rewrite by_tag_strong.
    induction (conversation (hooks w)) as [|a c IH]; simpl; [|rewrite IH]; reflexivity. }
  rewrite E. destruct (isProcessing (hooks w)) eqn:P.
  - destruct (reachable_processing w R P) as (l & _ & Hc & _).
    exists (List.length l). rewrite Hc, map_app, label_exchanges. reflexivity.
  - destruct (reachable_idle w R P) as [[l Hc] _].
    exists (List.length l). rewrite Hc, label_exchanges, app_nil_r. reflexivity.
Qed.

Lemma labels_alternate_witness :
  let w := run w_answered [Change (lit "more"); ClickProcess] in
  reachable w /\
  exists n,
    flat_map children_of (by_tag "strong" (App (hooks w))) =
    map Text (List.concat (repeat [lit "You:"; lit "Assistant:"] n) ++
              (if isProcessing (hooks w) then [lit "You:"] else [])).
Proof.
  assert (R : reachable (run w_answered [Change (lit "more"); ClickProcess])).
  { apply reachable_run, reachable_w_answered. }
  split; [exact R|].
  apply (labels_alternate (run w_answered [Change (lit "more"); ClickProcess])).
  exact R.
Defined.

(** X13.  What the controls show follows the pending request.  In every
    reachable world with a request in flight the text area and both buttons
    are rendered disabled and the first button reads "Processing...".  With
    none in flight the text area is enabled, the first button reads "Process
    Query", and Clear History is enabled exactly when the conversation is
    not empty. *)
Theorem controls_follow_the_request (w : World) :
  reachable w ->
  (pending w <> [] ->
   map (attr_of "disabled") (by_tag "textarea" (App (hooks w)) ++ by_tag "button" (App (hooks w))) =
     [Some (ABool true); Some (ABool true); Some (ABool true)] /\
   flat_map children_of (by_tag "button" (App (hooks w))) =
     [Text (lit "Processing..."); Text (lit "Clear History")]) /\
  (pending w = [] ->
   map (attr_of "disabled") (by_tag "textarea" (App (hooks w))) = [Some (ABool false)] /\
   flat_map children_of (by_tag "button" (App (hooks w))) =
     [Text (lit "Process Query"); Text (lit "Clear History")] /\
   map (attr_of "disabled") (by_tag "button" (App (hooks w))) =
     [Some (ABool (negb (truthy (JStr (trim (query (hooks w)))))));
      Some (ABool (List.length (conversation (hooks w)) =? 0))]).
Proof.
  intros R. rewrite map_app, by_tag_button.
  destruct (by_tag_textarea (hooks w)) as [Ht _]. rewrite Ht.
  unfold process_disabled, clear_disabled.
  destruct (isProcessing (hooks w)) eqn:P.
  - destruct (reachable_processing w R P) as (l & _ & _ & Hp). split.
    + intros _. rewrite !orb_true_r. split; reflexivity.
    + rewrite Hp. discriminate.
  - destruct (reachable_idle w R P) as [_ Hp]. split.
    + intros H. contradiction.
    + intros _. rewrite !orb_false_r. repeat split.
Qed.

Lemma controls_follow_the_request_witness :
  reachable w_busy /\ pending w_busy <> [] /\
  map (attr_of "disabled")
      (by_tag "textarea" (App (hooks w_busy)) ++ by_tag "button" (App (hooks w_busy))) =
    [Some (ABool true); Some (ABool true); Some (ABool true)] /\
  reachable w_answered /\ pending w_answered = [] /\
  map (attr_of "disabled") (by_tag "textarea" (App (hooks w_answered))) =
    [Some (ABool false)].
Proof.
  destruct (controls_follow_the_request w_busy reachable_w_busy) as [H1 _].
  assert (N : pending w_busy <> []) by discriminate.
  destruct (H1 N) as [H2 _].
  destruct (controls_follow_the_request w_answered reachable_w_answered) as [_ H3].
  destruct (H3 eq_refl) as [H4 _].
  split; [exact reachable_w_busy|]. split; [exact N|]. split; [exact H2|].
  split; [exact reachable_w_answered|]. split; [reflexivity | exact H4].
Defined.

(** X14.  A click on Clear History touches the conversation only: the query
    cell, [isProcessing], the pending requests and the console stay as they
    were.  When the button was enabled the conversation is empty afterwards,
    the history panel is no longer rendered, the button is disabled and a
    second click changes nothing; when it was disabled the click changes
    nothing. *)
Theorem clear_touches_the_conversation_only (w : World) :
  query (hooks (dispatch w ClickClear)) = query (hooks w) /\
  isProcessing (hooks (dispatch w ClickClear)) = isProcessing (hooks w) /\
  pending (dispatch w ClickClear) = pending w /\
  console (dispatch w ClickClear) = console w /\
  (clear_disabled (hooks w) = true -> dispatch w ClickClear = w) /\
  (clear_disabled (hooks w) = false ->
   conversation (hooks (dispatch w ClickClear)) = [] /\
   by_tag "h2" (App (hooks (dispatch w ClickClear))) = [] /\
   clear_disabled (hooks (dispatch w ClickClear)) = true /\
   dispatch (dispatch w ClickClear) ClickClear = dispatch w ClickClear).
Proof.
  cbn [dispatch]. destruct (clear_disabled (hooks w)) eqn:D.
  - do 4 (split; [reflexivity|]). split; [reflexivity | discriminate].
  - do 4 (split; [reflexivity|]). split; [discriminate|].
    intros _. repeat split.
Qed.

Lemma clear_touches_the_conversation_only_witness :
  clear_disabled (hooks w_answered) = false /\
  conversation (hooks w_answered) <> [] /\
  conversation (hooks (dispatch w_answered ClickClear)) = [] /\
  by_tag "h2" (App (hooks (dispatch w_answered ClickClear))) = [] /\
  clear_disabled (hooks initial) = true /\
  dispatch initial ClickClear = initial.
Proof.
  destruct (clear_touches_the_conversation_only w_answered) as (_ & _ & _ & _ & _ & H).
  destruct (H eq_refl) as (H1 & H2 & _).
  destruct (clear_touches_the_conversation_only initial) as (_ & _ & _ & _ & H3 & _).
  split; [reflexivity|]. split; [discriminate|]. split; [exact H1|]. split; [exact H2|].
  split; [reflexivity | exact (H3 eq_refl)].
Defined.

(** X15.  The text area is a controlled input: with no request in flight,
    an edit puts the new text in the query cell and the next render shows
    exactly that text as the text area's value; the edit changes neither the
    conversation nor the pending requests nor the console. *)
Theorem typed_text_is_shown (w : World) (value : jsstr) :
  isProcessing (hooks w) = false ->
  map (attr_of "value") (by_tag "textarea" (App (hooks (dispatch w (Change value))))) =
    [Some (AStr value)] /\
  conversation (hooks (dispatch w (Change value))) = conversation (hooks w) /\
  isProcessing (hooks (dispatch w (Change value))) = false /\
  pending (dispatch w (Change value)) = pending w /\
  console (dispatch w (Change value)) = console w.
Proof.
  intros P.
  destruct (by_tag_textarea (hooks (dispatch w (Change value)))) as [_ Hv].
  rewrite Hv. cbn [dispatch]. unfold textarea_disabled. rewrite P.
  repeat split. exact P.
Qed.

Lemma typed_text_is_shown_witness :
  isProcessing (hooks w_answered) = false /\
  map (attr_of "value")
      (by_tag "textarea" (App (hooks (dispatch w_answered (Change (lit "more")))))) =
    [Some (AStr (lit "more"))].
Proof.
  destruct (typed_text_is_shown w_answered (lit "more") eq_refl) as [H _].
  split; [reflexivity | exact H].
Defined.
